(** * Dataset compliance constants (wherehows-web/app/constants/dataset-compliance.ts)

    A shallow embedding of the option mapper, the wizard step sequencer and
    the entity filter / sanitizer, with JavaScript objects kept in an explicit
    store so that aliasing and mutation of the entities can be stated. *)

From Stdlib Require Import ZArith.
From stdpp Require Import gmap strings list fin_maps.

Local Open Scope string_scope.
Local Open Scope nat_scope.

(** ** JavaScript values and objects *)

(** Object identities (references). *)
Abbreviation loc := nat (only parsing).

(** Numbers: the integral values and NaN are enough for the comparisons made
    in this module. *)
Inductive JSNumber : Type :=
| NaN
| Int (z : Z).

Inductive JSValue : Type :=
| JUndefined
| JNull
| JBool (b : bool)
| JNumber (n : JSNumber)
| JString (s : string)
| JObject (l : loc).

Definition number_eqb (a b : JSNumber) : bool :=
  match a, b with
  | Int x, Int y => Z.eqb x y
  | _, _ => false
  end.

(** [x === y]: no coercion; values of different types are never equal, objects
    are compared by identity, NaN differs from itself. *)
Definition strict_eq (x y : JSValue) : bool :=
  match x, y with
  | JUndefined, JUndefined => true
  | JNull, JNull => true
  | JBool a, JBool b => Bool.eqb a b
  | JNumber a, JNumber b => number_eqb a b
  | JString a, JString b => String.eqb a b
  | JObject a, JObject b => Nat.eqb a b
  | _, _ => false
  end.

(** [x !== y] *)
Definition strict_neq (x y : JSValue) : bool := negb (strict_eq x y).

(** A plain object: its own properties. *)
Abbreviation JSObject := (gmap string JSValue) (only parsing).

(** [o.key], also what the destructuring [{ key }] binds: [undefined] when the
    property is absent. *)
Definition get (o : JSObject) (key : string) : JSValue :=
  default JUndefined (o !! key).

(** The store of objects. *)
Abbreviation heap := (gmap loc (gmap string JSValue)) (only parsing).

(** Computations that read and extend the store. *)
Definition M (A : Type) : Type := heap → A * heap.

Definition ret {A} (x : A) : M A := λ h, (x, h).

Definition bind {A B} (m : M A) (k : A → M B) : M B :=
  λ h, let '(x, h1) := m h in k x h1.

Global Instance M_bind : MBind M := λ A B k m, bind m k.

(** Dereference: the object a reference points to. A reference outside the
    store, which no JavaScript value can be, reads as the empty object. *)
Definition read (l : loc) : M JSObject :=
  λ h, (default ∅ (h !! l), h).

(** Allocation of a new object with the given properties. *)
Definition alloc (o : JSObject) : M loc :=
  λ h, let l := fresh (dom h) in (l, <[l := o]> h).

(** ** utils/array and utils/object *)

(** Modelled from the spec: [arrayMap] is imported from
    wherehows-web/utils/array, whose definition is missing; per the spec it
    applies the mapping function to each element, first to last, and collects
    the results in input order, one per element. *)
Fixpoint arrayMap {A B} (mappingFunction : A → M B) (array : list A) : M (list B) :=
  match array with
  | [] => ret []
  | x :: rest =>
      y ← mappingFunction x;
      ys ← arrayMap mappingFunction rest;
      ret (y :: ys)
  end.

(** Modelled from the spec: [arrayFilter] is imported from
    wherehows-web/utils/array, whose definition is missing; per the spec it
    keeps, in their original order, the elements for which the filtration
    function holds and drops the others. The elements kept are the input
    references themselves. *)
Fixpoint arrayFilter {A} (filtrationFunction : A → M bool) (array : list A) : M (list A) :=
  match array with
  | [] => ret []
  | x :: rest =>
      keep ← filtrationFunction x;
      kept ← arrayFilter filtrationFunction rest;
      ret (if (keep : bool) then x :: kept else kept)
  end.

(** Modelled from the spec: [fleece] is imported from
    wherehows-web/utils/object, whose definition is missing; per the spec it
    is a shallow copy-construct-without-field operation: a new object is
    returned that holds every attribute of the argument but the dropped keys,
    and the argument itself is left as it is. *)
Definition fleece (droppedKeys : list string) (o : loc) : M loc :=
  attrs ← read o;
  alloc (foldl (λ partial key, delete key partial) attrs droppedKeys).

(** ** Option mapper *)

Section OptionMapper.

(** The enumeration of field identifier values lives in
    wherehows-web/constants/datasets/compliance; it is opaque here. *)
Context {ComplianceFieldIdValue : Type}.

Record IComplianceDataType : Type := {
  id : ComplianceFieldIdValue;
  title : string
}.

Record IFieldIdentifierOption (T : Type) : Type := {
  value : T;
  label : string;
  isDisabled : option bool
}.

Definition getFieldIdentifierOption (complianceDataType : IComplianceDataType)
  : IFieldIdentifierOption ComplianceFieldIdValue :=
  let '{| id := id; title := title |} := complianceDataType in
  {| value := id; label := title; isDisabled := None |}.

Definition getFieldIdentifierOptions
  : list IComplianceDataType → M (list (IFieldIdentifierOption ComplianceFieldIdValue)) :=
  arrayMap (λ d, ret (getFieldIdentifierOption d)).

End OptionMapper.

Arguments IComplianceDataType : clear implicits.
Arguments value {T}.
Arguments label {T}.
Arguments isDisabled {T}.

(** ** Step sequencer *)

Record WizardStep : Type := { name : string }.

(** An object literal made of spreads, [{ ...a, ...b }]: the properties of
    each source are copied in turn into a new object, later ones overwriting
    earlier ones. *)
Definition object_spread {V} (sources : list (gmap nat V)) : gmap nat V :=
  foldl (λ target source, source ∪ target) ∅ sources.

Definition complianceSteps : gmap nat WizardStep :=
  {[ 0 := {| name := "editCompliancePolicy" |};
     1 := {| name := "editPurgePolicy" |};
     2 := {| name := "editDatasetClassification" |} ]}.

(** [hasSchema] is [None] when the argument is omitted. *)
Definition getComplianceSteps (hasSchema : option bool) : gmap nat WizardStep :=
  let hasSchema := default true hasSchema in
  let piiTaggingStep : gmap nat WizardStep :=
    {[ 0 := {| name := "editDatasetLevelCompliancePolicy" |} ]} in
  if negb hasSchema then object_spread [complianceSteps; piiTaggingStep]
  else complianceSteps.

(** ** Entity filter and sanitizer *)

Definition isEditableComplianceEntity (entity : loc) : M bool :=
  attrs ← read entity;
  let readonly := get attrs "readonly" in
  ret (strict_neq readonly (JBool true)).

Definition filterEditableEntities (entities : list loc) : M (list loc) :=
  arrayFilter isEditableComplianceEntity entities.

Definition removeReadonlyAttr (entities : list loc) : M (list loc) :=
  arrayMap (fleece ["readonly"]) entities.

(** The objects a list of references points to in a store. *)
Definition contents (h : heap) (entities : list loc) : list (option JSObject) :=
  (λ l, h !! l) <$> entities.

(** Whether an entity is editable in a given store: the value
    [isEditableComplianceEntity] returns there. *)
Definition editable (h : heap) (entity : loc) : bool :=
  (isEditableComplianceEntity entity h).1.

(** [stripped h h' l l']: [l'] is a new object of [h'], not one of [h], that
    holds no readonly attribute and is otherwise the object [l] points to in
    [h]. *)
Definition stripped (h h' : heap) (l l' : loc) : Prop :=
  (l' ∉ dom h)
  ∧ (∃ o', h' !! l' = Some o'
           ∧ o' !! "readonly" = None
           ∧ ∀ o, h !! l = Some o → o' = delete "readonly" o).

(** * Properties *)

(** ** Step sequencer *)

Example steps_default :
  getComplianceSteps None !! 0 = Some {| name := "editCompliancePolicy" |}.
Proof. reflexivity. Qed.

Example steps_noschema_second :
  getComplianceSteps (Some false) !! 1 = Some {| name := "editPurgePolicy" |}.
Proof. reflexivity. Qed.

Lemma object_spread_two {V} (a b : gmap nat V) : object_spread [a; b] = b ∪ a.
Proof. unfold object_spread. simpl. by rewrite (right_id_L ∅ (∪)). Qed.

Lemma union_singleton_insert {V} (k : nat) (v : V) (m : gmap nat V) :
  {[ k := v ]} ∪ m = <[ k := v ]> m.
Proof. by rewrite insert_union_singleton_l. Qed.

Lemma getComplianceSteps_noschema :
  getComplianceSteps (Some false)
  = <[ 0 := {| name := "editDatasetLevelCompliancePolicy" |} ]> complianceSteps.
Proof.
  unfold getComplianceSteps. simpl.
  rewrite object_spread_two. apply union_singleton_insert.
Qed.

(** Lookup in the default sequence, key by key. *)
Lemma complianceSteps_lookup (k : nat) :
  complianceSteps !! k =
    match k with
    | 0 => Some {| name := "editCompliancePolicy" |}
    | 1 => Some {| name := "editPurgePolicy" |}
    | 2 => Some {| name := "editDatasetClassification" |}
    | _ => None
    end.
Proof.
  unfold complianceSteps.
  destruct k as [|[|[|k]]]; try reflexivity.
  rewrite !lookup_insert_ne by lia. by apply lookup_singleton_ne.
Qed.

(** Keys other than 0 are the same with and without a schema. *)
Lemma getComplianceSteps_noschema_lookup (k : nat) :
  getComplianceSteps (Some false) !! k =
    match k with
    | 0 => Some {| name := "editDatasetLevelCompliancePolicy" |}
    | _ => complianceSteps !! k
    end.
Proof.
  rewrite getComplianceSteps_noschema. destruct k as [|k].
  - apply lookup_insert_eq.
  - by rewrite lookup_insert_ne by lia.
Qed.

(** C1, as stated, fails: without a schema the sequence is not reduced to the
    single key 0; key 1 (and key 2) is still there. *)
Lemma noschema_not_single_step :
  ¬ (getComplianceSteps (Some false) !! 0
       = Some {| name := "editDatasetLevelCompliancePolicy" |}
     ∧ getComplianceSteps (Some false) !! 1 = None
     ∧ getComplianceSteps (Some false) !! 2 = None).
Proof. intros (_ & H1 & _). vm_compute in H1. discriminate H1. Qed.

(** C1, amended: without a schema, key 0 is mapped to the dataset level
    compliance step, keys 1 and 2 are present with their default steps, and
    no other key is: the sequence has three steps. *)
Theorem noschema_steps_keys :
  getComplianceSteps (Some false) !! 0
    = Some {| name := "editDatasetLevelCompliancePolicy" |}
  ∧ getComplianceSteps (Some false) !! 1 = complianceSteps !! 1
  ∧ getComplianceSteps (Some false) !! 2 = complianceSteps !! 2
  ∧ is_Some (getComplianceSteps (Some false) !! 1)
  ∧ is_Some (getComplianceSteps (Some false) !! 2)
  ∧ dom (getComplianceSteps (Some false)) = {[ 0; 1; 2 ]}
  ∧ size (getComplianceSteps (Some false)) = 3.
Proof.
  rewrite getComplianceSteps_noschema.
  repeat split; try reflexivity; eexists; reflexivity.
Qed.

(** C2: without a schema the result is exactly the three entry map, which is
    the default map with key 0 alone overridden. *)
Theorem noschema_steps_exact :
  getComplianceSteps (Some false)
  = {[ 0 := {| name := "editDatasetLevelCompliancePolicy" |};
       1 := {| name := "editPurgePolicy" |};
       2 := {| name := "editDatasetClassification" |} ]}
  ∧ getComplianceSteps (Some false)
    = <[ 0 := {| name := "editDatasetLevelCompliancePolicy" |} ]> complianceSteps
  ∧ delete 0 (getComplianceSteps (Some false)) = delete 0 complianceSteps.
Proof.
  rewrite getComplianceSteps_noschema. unfold complianceSteps.
  split; [|split].
  - apply insert_insert_eq.
  - reflexivity.
  - by rewrite delete_insert_eq.
Qed.

(** C3: with no argument the result is exactly the default three entry map,
    and passing [true] gives the same map. *)
Theorem default_steps_exact :
  getComplianceSteps None
  = {[ 0 := {| name := "editCompliancePolicy" |};
       1 := {| name := "editPurgePolicy" |};
       2 := {| name := "editDatasetClassification" |} ]}
  ∧ getComplianceSteps (Some true) = getComplianceSteps None.
Proof. split; reflexivity. Qed.

(** C9: whatever the argument, the result is not empty, its keys are exactly
    0 .. n-1 for some n >= 1, and key 0 holds the compliance policy step, named
    after the presence of a schema. *)
Theorem steps_dense_nonempty (hasSchema : option bool) :
  getComplianceSteps hasSchema ≠ ∅
  ∧ (∃ n : nat, 1 ≤ n
        ∧ dom (getComplianceSteps hasSchema) = set_seq 0 n
        ∧ ∀ k, is_Some (getComplianceSteps hasSchema !! k) ↔ k < n)
  ∧ getComplianceSteps hasSchema !! 0
    = Some {| name := if default true hasSchema
                      then "editCompliancePolicy"
                      else "editDatasetLevelCompliancePolicy" |}.
Proof.
  assert (Hk : ∀ k, is_Some (getComplianceSteps hasSchema !! k) ↔ k < 3).
  { intros k.
    assert (Hl : getComplianceSteps hasSchema !! k = complianceSteps !! k
                 ∨ (k = 0 ∧ is_Some (getComplianceSteps hasSchema !! k))).
    { destruct hasSchema as [[]|]; [by left| |by left].
      rewrite getComplianceSteps_noschema_lookup.
      destruct k; [right; eauto | by left]. }
    destruct Hl as [-> | [-> ?]]; [|split; [lia | done]].
    rewrite complianceSteps_lookup.
    destruct k as [|[|[|k]]]; split; intros H; try lia; eauto;
      by destruct H. }
  split; [|split].
  - intros He. destruct (proj2 (Hk 0)) as [x Hx]; [lia|].
    rewrite He, lookup_empty in Hx. discriminate.
  - exists 3. split; [lia|]. split; [|exact Hk].
    apply set_eq. intros k. rewrite elem_of_dom, Hk, elem_of_set_seq. lia.
  - destruct hasSchema as [[]|]; reflexivity.
Qed.

(** ** Running computations on a store *)

Lemma arrayMap_nil {A B} (f : A → M B) (h : heap) : arrayMap f [] h = ([], h).
Proof. reflexivity. Qed.

Lemma arrayMap_cons {A B} (f : A → M B) (x : A) (rest : list A) (h : heap) :
  arrayMap f (x :: rest) h
  = ((f x h).1 :: (arrayMap f rest (f x h).2).1, (arrayMap f rest (f x h).2).2).
Proof.
  simpl. unfold mbind, M_bind, bind. destruct (f x h) as [y h1]. simpl.
  by destruct (arrayMap f rest h1).
Qed.

Lemma arrayFilter_cons {A} (f : A → M bool) (x : A) (rest : list A) (h : heap) :
  arrayFilter f (x :: rest) h
  = (if (f x h).1 then x :: (arrayFilter f rest (f x h).2).1
     else (arrayFilter f rest (f x h).2).1,
     (arrayFilter f rest (f x h).2).2).
Proof.
  simpl. unfold mbind, M_bind, bind. destruct (f x h) as [keep h1]. simpl.
  by destruct (arrayFilter f rest h1).
Qed.

(** Mapping a function that leaves the store alone is the list map. *)
Lemma arrayMap_pure {A B} (f : A → B) (array : list A) (h : heap) :
  arrayMap (λ x, ret (f x)) array h = (f <$> array, h).
Proof.
  induction array as [|x rest IH]; [reflexivity|].
  rewrite arrayMap_cons. simpl. rewrite IH. reflexivity.
Qed.

(** Filtering with a test that only reads the store is the list filter. *)
Lemma arrayFilter_pure {A} (f : A → M bool) (p : A → bool) (array : list A) (h : heap) :
  (∀ x, f x h = (p x, h)) →
  arrayFilter f array h = (filter (λ x, p x = true) array, h).
Proof.
  intros Hf. induction array as [|x rest IH]; [reflexivity|].
  rewrite arrayFilter_cons, Hf. simpl. rewrite IH. simpl.
  destruct (p x) eqn:Hp.
  - by rewrite filter_cons_True.
  - rewrite filter_cons_False; [done|]. by rewrite Hp.
Qed.

(** ** Option mapper *)

(** C4: an option takes its value from the record's id and its label from the
    record's title, and sets no isDisabled; the options of a list are the
    options of its elements, in order, as many as the input has, none for an
    empty input, and the store is left as it is. *)
Theorem getFieldIdentifierOptions_pointwise {T : Type} :
  (∀ d : IComplianceDataType T,
     value (getFieldIdentifierOption d) = id d
     ∧ label (getFieldIdentifierOption d) = title d
     ∧ isDisabled (getFieldIdentifierOption d) = None)
  ∧ (∀ (array : list (IComplianceDataType T)) (h : heap),
       length (getFieldIdentifierOptions array h).1 = length array
       ∧ (∀ i : nat, (getFieldIdentifierOptions array h).1 !! i
                     = getFieldIdentifierOption <$> array !! i)
       ∧ (getFieldIdentifierOptions array h).2 = h)
  ∧ (∀ h : heap, getFieldIdentifierOptions (@nil (IComplianceDataType T)) h = ([], h)).
Proof.
  split; [|split].
  - intros [i t]. by simpl.
  - intros array h. unfold getFieldIdentifierOptions.
    rewrite arrayMap_pure. simpl. split; [|split].
    + apply length_fmap.
    + intros i. apply list_lookup_fmap.
    + reflexivity.
  - reflexivity.
Qed.

(** ** Entity filter *)

Lemma isEditableComplianceEntity_run (entity : loc) (h : heap) :
  isEditableComplianceEntity entity h
  = (strict_neq (get (default ∅ (h !! entity)) "readonly") (JBool true), h).
Proof. reflexivity. Qed.

(** Strict inequality with [true] fails on the boolean [true] alone. *)
Lemma strict_neq_true (v : JSValue) :
  strict_neq v (JBool true) = false ↔ v = JBool true.
Proof.
  unfold strict_neq. destruct v as [| |[]|n|s|l]; simpl; split; intros H;
    try discriminate; try reflexivity.
Qed.

Lemma get_eq_defined (o : gmap string JSValue) (key : string) (v : JSValue) :
  v ≠ JUndefined → get o key = v ↔ o !! key = Some v.
Proof.
  intros Hv. unfold get. destruct (o !! key) as [w|]; simpl; split; intros H;
    try congruence.
Qed.

Lemma editable_lookup (h : heap) (entity : loc) (attrs : gmap string JSValue) :
  h !! entity = Some attrs →
  editable h entity = false ↔ attrs !! "readonly" = Some (JBool true).
Proof.
  intros Hh. unfold editable. rewrite isEditableComplianceEntity_run, Hh. simpl.
  rewrite strict_neq_true. by apply get_eq_defined.
Qed.

Lemma editable_no_readonly (h : heap) (entity : loc) (attrs : gmap string JSValue) :
  h !! entity = Some attrs → attrs !! "readonly" = None → editable h entity = true.
Proof.
  intros Hh Hr. destruct (editable h entity) eqn:He; [done|].
  apply (editable_lookup _ _ _ Hh) in He. congruence.
Qed.

Example editable_readonly_true :
  editable {[ 7 := {[ "readonly" := JBool true ]} ]} 7 = false.
Proof. reflexivity. Qed.

Example editable_readonly_absent :
  editable {[ 7 := ∅ ]} 7 = true.
Proof. reflexivity. Qed.

Example editable_readonly_false :
  editable {[ 7 := {[ "readonly" := JBool false ]} ]} 7 = true.
Proof. reflexivity. Qed.

Example editable_readonly_string :
  editable {[ 7 := {[ "readonly" := JString "true" ]} ]} 7 = true.
Proof. reflexivity. Qed.

Example editable_readonly_one :
  editable {[ 7 := {[ "readonly" := JNumber (Int 1) ]} ]} 7 = true.
Proof. reflexivity. Qed.

(** C5: an entity is not editable exactly when its readonly attribute is the
    boolean [true]; with the attribute absent, [false], or any other value
    (the string 'true', the number 1) it is editable. The test reads the
    store and leaves it as it is. *)
Theorem isEditableComplianceEntity_strict
    (h : heap) (entity : loc) (attrs : gmap string JSValue) :
  h !! entity = Some attrs →
  (isEditableComplianceEntity entity h).2 = h
  ∧ ((isEditableComplianceEntity entity h).1 = false
     ↔ attrs !! "readonly" = Some (JBool true))
  ∧ ((isEditableComplianceEntity entity h).1 = true
     ↔ attrs !! "readonly" ≠ Some (JBool true))
  ∧ (attrs !! "readonly" = None
     ∨ attrs !! "readonly" = Some (JBool false)
     ∨ attrs !! "readonly" = Some (JString "true")
     ∨ attrs !! "readonly" = Some (JNumber (Int 1))
     → (isEditableComplianceEntity entity h).1 = true).
Proof.
  intros Hh. pose proof (editable_lookup h entity attrs Hh) as He.
  unfold editable in He.
  assert (Ht : (isEditableComplianceEntity entity h).1 = true
               ↔ attrs !! "readonly" ≠ Some (JBool true)).
  { rewrite <- He. destruct (isEditableComplianceEntity entity h).1; split;
      congruence. }
  split; [reflexivity|]. split; [exact He|]. split; [exact Ht|].
  intros Hc. apply Ht. intros Hr. rewrite Hr in Hc.
  destruct Hc as [Hc|[Hc|[Hc|Hc]]]; discriminate Hc.
Qed.

Lemma isEditableComplianceEntity_strict_witness :
  let h : gmap nat (gmap string JSValue) :=
    {[ 7 := {[ "identifierField" := JString "memberId";
               "readonly" := JString "true" ]} ]} in
  (isEditableComplianceEntity 7 h).1 = true.
Proof.
  intros h.
  apply (isEditableComplianceEntity_strict h 7
           {[ "identifierField" := JString "memberId";
              "readonly" := JString "true" ]}).
  - reflexivity.
  - right. right. left. reflexivity.
Defined.

Example filter_three :
  let h : gmap nat (gmap string JSValue) :=
    {[ 0 := {[ "readonly" := JBool true ]};
       1 := {[ "readonly" := JString "true" ]};
       2 := {[ "identifierField" := JString "memberId" ]} ]} in
  filterEditableEntities [0; 1; 2; 0; 1] h = ([1; 2; 1], h).
Proof. reflexivity. Qed.

(** C6: filtering returns the entities that are editable, and only those, as
    a subsequence of the input in its order; the result is no longer than the
    input and the store is left as it is. *)
Theorem filterEditableEntities_subsequence (h : heap) (entities : list loc) :
  filterEditableEntities entities h
    = (filter (λ l, editable h l = true) entities, h)
  ∧ sublist (filterEditableEntities entities h).1 entities
  ∧ Forall (λ l, editable h l = true) (filterEditableEntities entities h).1
  ∧ Forall (λ l, editable h l = false → l ∉ (filterEditableEntities entities h).1)
      entities
  ∧ Forall (λ l, editable h l = true → l ∈ (filterEditableEntities entities h).1)
      entities
  ∧ length (filterEditableEntities entities h).1 ≤ length entities.
Proof.
  assert (Hrun : filterEditableEntities entities h
                 = (filter (λ l, editable h l = true) entities, h)).
  { unfold filterEditableEntities. apply arrayFilter_pure.
    intros l. reflexivity. }
  rewrite Hrun. simpl. repeat split.
  - apply sublist_filter.
  - apply Forall_forall. intros l Hl. by apply list_elem_of_filter in Hl as [? _].
  - apply Forall_forall. intros l _ Hf Hl.
    apply list_elem_of_filter in Hl as [Ht _]. congruence.
  - apply Forall_forall. intros l Hl Ht. by apply list_elem_of_filter.
  - apply length_filter.
Qed.

(** ** Entity sanitizer *)

Lemma fleece_run (droppedKeys : list string) (o : loc) (h : heap) :
  fleece droppedKeys o h
  = (fresh (dom h),
     <[ fresh (dom h) :=
          foldl (λ partial key, delete key partial) (default ∅ (h !! o)) droppedKeys ]> h).
Proof. reflexivity. Qed.

Lemma removeReadonlyAttr_nil (h : heap) : removeReadonlyAttr [] h = ([], h).
Proof. reflexivity. Qed.

Lemma removeReadonlyAttr_cons (l : loc) (rest : list loc) (h : heap) :
  removeReadonlyAttr (l :: rest) h
  = let l0 := fresh (dom h) in
    let h0 := <[ l0 := delete "readonly" (default ∅ (h !! l)) ]> h in
    (l0 :: (removeReadonlyAttr rest h0).1, (removeReadonlyAttr rest h0).2).
Proof. unfold removeReadonlyAttr. by rewrite arrayMap_cons, fleece_run. Qed.

Example strip_two :
  let h : gmap nat (gmap string JSValue) :=
    {[ 0 := {[ "identifierField" := JString "memberId";
               "readonly" := JBool true ]};
       1 := {[ "identifierField" := JString "requestHeader" ]} ]} in
  (removeReadonlyAttr [0; 1] h).1 = [2; 3]
  ∧ contents (removeReadonlyAttr [0; 1] h).2 [2; 3]
    = [ Some {[ "identifierField" := JString "memberId" ]};
        Some {[ "identifierField" := JString "requestHeader" ]} ]
  ∧ contents (removeReadonlyAttr [0; 1] h).2 [0; 1] = contents h [0; 1].
Proof. vm_compute. auto. Qed.

(** The new object of one step. *)
Lemma fleece_fresh (h : heap) : h !! fresh (dom h) = None.
Proof. apply not_elem_of_dom, is_fresh. Qed.

Lemma stripped_weaken (h h0 h' : heap) (l l' : loc) :
  h ⊆ h0 → stripped h0 h' l l' → stripped h h' l l'.
Proof.
  intros Hsub (Hnew & o' & Hl' & Hro & Hcopy). split.
  - intros Hin. apply Hnew. by apply (subseteq_dom h h0).
  - exists o'. repeat split; [done..|].
    intros o Ho. apply Hcopy. by apply (lookup_weaken h h0).
Qed.

(** What a run of the sanitizer does: the store only grows, and the results
    are new, pairwise distinct objects, one per input entity. *)
Lemma removeReadonlyAttr_inv (entities : list loc) :
  ∀ h : heap,
    h ⊆ (removeReadonlyAttr entities h).2
    ∧ Forall2 (stripped h (removeReadonlyAttr entities h).2)
        entities (removeReadonlyAttr entities h).1
    ∧ NoDup (removeReadonlyAttr entities h).1.
Proof.
  induction entities as [|l rest IH]; intros h.
  - rewrite removeReadonlyAttr_nil. simpl. repeat split; [done|constructor..].
  - rewrite removeReadonlyAttr_cons. simpl.
    set (l0 := fresh (dom h)).
    set (h0 := <[ l0 := delete "readonly" (default ∅ (h !! l)) ]> h).
    destruct (IH h0) as (Hsub & Hall & Hnd).
    assert (Hh0 : h ⊆ h0) by apply insert_subseteq, fleece_fresh.
    assert (Hl0 : h0 !! l0 = Some (delete "readonly" (default ∅ (h !! l))))
      by apply lookup_insert_eq.
    split; [by transitivity h0|]. split.
    + constructor.
      * split; [apply is_fresh|].
        eexists. split; [by apply (lookup_weaken h0)|].
        split; [apply lookup_delete_eq|].
        intros o Ho. by rewrite Ho.
      * eapply Forall2_impl; [exact Hall|].
        intros x y. by apply stripped_weaken.
    + constructor; [|done].
      intros Hin. apply list_elem_of_lookup in Hin as [i Hi].
      destruct (Forall2_lookup_r _ _ _ _ _ Hall Hi) as (x & _ & Hnew & _).
      apply Hnew, elem_of_dom. by eexists.
Qed.

(** Every result of the sanitizer is an object without readonly attribute. *)
Lemma removeReadonlyAttr_no_readonly (h : heap) (entities : list loc) :
  Forall (λ l', ∃ o', (removeReadonlyAttr entities h).2 !! l' = Some o'
                      ∧ o' !! "readonly" = None)
    (removeReadonlyAttr entities h).1.
Proof.
  destruct (removeReadonlyAttr_inv entities h) as (_ & Hall & _).
  eapply Forall2_Forall_r; [exact Hall|].
  apply Forall_forall. intros l' _ l (_ & o' & Ho' & Hro & _). eauto.
Qed.

Lemma Forall2_fmap_eq {A B C} (f : A → C) (g : B → C) (l : list A) (k : list B) :
  Forall2 (λ x y, f x = g y) l k → f <$> l = g <$> k.
Proof.
  induction 1 as [|x y l k Hxy _ IH]; [done|].
  rewrite !fmap_cons. by rewrite Hxy, IH.
Qed.

Lemma filter_Forall_id {A} (P : A → Prop) `{!∀ x, Decision (P x)} (l : list A) :
  Forall P l → filter P l = l.
Proof.
  induction 1 as [|x l Hx _ IH]; [done|]. by rewrite filter_cons_True, IH.
Qed.

(** C7: the sanitizer returns as many entities as it is given, in the same
    order; no returned entity has a readonly attribute, every other attribute
    of the corresponding input entity is kept with its value, the objects
    already in the store (the input entities among them) are left as they
    are, and the returned entities are new objects. *)
Theorem removeReadonlyAttr_strips (h : heap) (entities : list loc) :
  let res := (removeReadonlyAttr entities h).1 in
  let h' := (removeReadonlyAttr entities h).2 in
  length res = length entities
  ∧ Forall (λ l', ∃ o', h' !! l' = Some o' ∧ o' !! "readonly" = None) res
  ∧ (∀ (i : nat) (l : loc) (o : gmap string JSValue),
       entities !! i = Some l → h !! l = Some o →
       ∃ l' o', res !! i = Some l' ∧ h' !! l' = Some o'
                ∧ ∀ key, key ≠ "readonly" → o' !! key = o !! key)
  ∧ (∀ (l : loc) (o : gmap string JSValue), h !! l = Some o → h' !! l = Some o)
  ∧ Forall (λ l', l' ∉ dom h) res
  ∧ NoDup res.
Proof.
  intros res h'. subst res h'.
  destruct (removeReadonlyAttr_inv entities h) as (Hsub & Hall & Hnd).
  split; [symmetry; by eapply Forall2_length|].
  split; [apply removeReadonlyAttr_no_readonly|].
  split; [|split; [|split; [|done]]].
  - intros i l o Hi Ho.
    destruct (Forall2_lookup_l _ _ _ _ _ Hall Hi)
      as (l' & Hl' & _ & o' & Ho' & _ & Hcopy).
    exists l', o'. split; [done|]. split; [done|].
    intros key Hkey. rewrite (Hcopy o Ho). by apply lookup_delete_ne.
  - intros l o Ho. by apply (lookup_weaken h).
  - eapply Forall2_Forall_r; [exact Hall|].
    apply Forall_forall. by intros l' _ l (Hnew & _).
Qed.

Lemma removeReadonlyAttr_strips_witness :
  let h : gmap nat (gmap string JSValue) :=
    {[ 0 := {[ "identifierField" := JString "memberId";
               "readonly" := JBool true ]};
       1 := {[ "identifierField" := JString "requestHeader" ]} ]} in
  ∃ l' o', (removeReadonlyAttr [0; 1] h).1 !! 0 = Some l'
           ∧ (removeReadonlyAttr [0; 1] h).2 !! l' = Some o'
           ∧ ∀ key, key ≠ "readonly" →
               o' !! key
               = ({[ "identifierField" := JString "memberId";
                     "readonly" := JBool true ]} : gmap string JSValue) !! key.
Proof.
  intros h.
  destruct (removeReadonlyAttr_strips h [0; 1]) as (_ & _ & Hkeep & _).
  apply (Hkeep 0 0); reflexivity.
Defined.

(** C8: the sanitizer is idempotent; run on its own output it returns
    entities whose contents are those of that output, which it leaves as it
    is. *)
Theorem removeReadonlyAttr_idempotent (h : heap) (entities : list loc) :
  let r1 := (removeReadonlyAttr entities h).1 in
  let h1 := (removeReadonlyAttr entities h).2 in
  let r2 := (removeReadonlyAttr r1 h1).1 in
  let h2 := (removeReadonlyAttr r1 h1).2 in
  contents h2 r2 = contents h1 r1
  ∧ contents h2 r1 = contents h1 r1
  ∧ Forall is_Some (contents h1 r1)
  ∧ length r2 = length r1.
Proof.
  intros r1 h1 r2 h2.
  pose proof (removeReadonlyAttr_no_readonly h entities) as Hro.
  fold r1 h1 in Hro.
  destruct (removeReadonlyAttr_inv r1 h1) as (Hsub & Hall & _).
  fold r2 h2 in Hsub, Hall.
  assert (Hlen : length r2 = length r1) by (symmetry; by eapply Forall2_length).
  repeat split; [| | |exact Hlen].
  - symmetry. unfold contents. apply Forall2_fmap_eq.
    apply Forall2_same_length_lookup. split; [done|].
    intros i l1 l2 Hl1 Hl2.
    destruct (Forall2_lookup_lr _ _ _ _ _ _ Hall Hl1 Hl2)
      as (_ & o2 & Ho2 & _ & Hcopy).
    assert (Hin : l1 ∈ r1) by (apply list_elem_of_lookup; eauto).
    destruct (proj1 (Forall_forall _ _) Hro l1 Hin) as (o1 & Ho1 & Hno).
    rewrite Ho1, Ho2, (Hcopy o1 Ho1). by rewrite delete_id.
  - unfold contents. apply list_fmap_ext. intros i l Hl.
    assert (Hin : l ∈ r1) by (apply list_elem_of_lookup; eauto).
    destruct (proj1 (Forall_forall _ _) Hro l Hin) as (o1 & Ho1 & _).
    rewrite Ho1. by apply (lookup_weaken h1).
  - unfold contents. apply Forall_fmap. eapply Forall_impl; [exact Hro|].
    intros l (o1 & Ho1 & _). simpl. by eexists.
Qed.

(** C10: every entity the sanitizer returns is editable, and filtering its
    output for editable entities returns that output as it is. *)
Theorem removeReadonlyAttr_all_editable (h : heap) (entities : list loc) :
  let r1 := (removeReadonlyAttr entities h).1 in
  let h1 := (removeReadonlyAttr entities h).2 in
  Forall (λ l, (isEditableComplianceEntity l h1).1 = true) r1
  ∧ filterEditableEntities r1 h1 = (r1, h1).
Proof.
  intros r1 h1.
  assert (Hed : Forall (λ l, editable h1 l = true) r1).
  { eapply Forall_impl; [apply removeReadonlyAttr_no_readonly|].
    intros l (o & Ho & Hno). by eapply editable_no_readonly. }
  split; [exact Hed|].
  unfold filterEditableEntities.
  rewrite (arrayFilter_pure _ (editable h1)) by reflexivity.
  by rewrite filter_Forall_id.
Qed.

(** * Further properties *)

(** ** Step sequencer: what the schema flag can change *)

Lemma getComplianceSteps_schema (hasSchema : option bool) :
  default true hasSchema = true → getComplianceSteps hasSchema = complianceSteps.
Proof. unfold getComplianceSteps. by intros ->. Qed.

Lemma getComplianceSteps_lookup (hasSchema : option bool) (k : nat) :
  getComplianceSteps hasSchema !! k =
    match k with
    | 0 => Some {| name := if default true hasSchema
                           then "editCompliancePolicy"
                           else "editDatasetLevelCompliancePolicy" |}
    | 1 => Some {| name := "editPurgePolicy" |}
    | 2 => Some {| name := "editDatasetClassification" |}
    | _ => None
    end.
Proof.
  destruct hasSchema as [[]|];
    [apply complianceSteps_lookup| |apply complianceSteps_lookup].
  rewrite getComplianceSteps_noschema_lookup.
  destruct k; [reflexivity|]. by rewrite complianceSteps_lookup.
Qed.

(** X1: whatever two arguments are compared, the two sequences have the same
    keys and the same number of steps and agree on every key but 0; they are
    the same sequence exactly when the two flags, with the default applied,
    are the same. *)
Theorem getComplianceSteps_flag_only_key0 (a b : option bool) :
  dom (getComplianceSteps a) = dom (getComplianceSteps b)
  ∧ size (getComplianceSteps a) = size (getComplianceSteps b)
  ∧ delete 0 (getComplianceSteps a) = delete 0 (getComplianceSteps b)
  ∧ (getComplianceSteps a = getComplianceSteps b
     ↔ default true a = default true b).
Proof.
  assert (Hdel : ∀ c, delete 0 (getComplianceSteps c) = delete 0 complianceSteps).
  { intros c. apply map_eq. intros k. destruct k as [|k].
    - by rewrite !lookup_delete_eq.
    - rewrite !lookup_delete_ne by lia.
      rewrite getComplianceSteps_lookup, complianceSteps_lookup. done. }
  assert (Hdom : ∀ c, dom (getComplianceSteps c) = dom complianceSteps).
  { intros c. apply set_eq. intros k. rewrite !elem_of_dom.
    rewrite getComplianceSteps_lookup, complianceSteps_lookup.
    destruct k as [|[|[|k]]]; split; intros [x Hx]; try discriminate; eauto. }
  split; [by rewrite !Hdom|].
  split; [by rewrite <- !size_dom, !Hdom|].
  split; [by rewrite !Hdel|].
  split.
  - intros Heq. apply (f_equal (λ m, m !! 0)) in Heq.
    rewrite !getComplianceSteps_lookup in Heq.
    destruct (default true a), (default true b); by try discriminate Heq.
  - intros Heq. apply map_eq. intros k.
    rewrite !getComplianceSteps_lookup. by rewrite Heq.
Qed.

(** X2: within a sequence no two positions hold a step of the same name. *)
Theorem getComplianceSteps_names_distinct
    (hasSchema : option bool) (i j : nat) (si sj : WizardStep) :
  getComplianceSteps hasSchema !! i = Some si →
  getComplianceSteps hasSchema !! j = Some sj →
  name si = name sj →
  i = j.
Proof.
  rewrite !getComplianceSteps_lookup. intros Hi Hj Hname.
  destruct i as [|[|[|i]]], j as [|[|[|j]]]; try discriminate; try reflexivity;
    injection Hi as <-; injection Hj as <-; simpl in Hname;
    destruct (default true hasSchema); discriminate Hname.
Qed.

Lemma getComplianceSteps_names_distinct_witness :
  (1 : nat) = 1.
Proof.
  apply (getComplianceSteps_names_distinct (Some false) 1 1
           {| name := "editPurgePolicy" |} {| name := "editPurgePolicy" |});
    reflexivity.
Defined.

(** ** Entity filter: frame and composition *)



Lemma filterEditableEntities_run (h : heap) (entities : list loc) :
  filterEditableEntities entities h
  = (filter (λ l, editable h l = true) entities, h).
Proof.
  unfold filterEditableEntities. apply arrayFilter_pure. intros l. reflexivity.
Qed.

Lemma filter_eq_Forall {A} (P : A → Prop) `{!∀ x, Decision (P x)} (l : list A) :
  filter P l = l ↔ Forall P l.
Proof.
  split; [|apply filter_Forall_id].
  intros Heq. apply Forall_forall. intros x Hx.
  rewrite <- Heq in Hx. by apply list_elem_of_filter in Hx as [? _].
Qed.

Lemma filter_nil_Forall {A} (P : A → Prop) `{!∀ x, Decision (P x)} (l : list A) :
  filter P l = [] ↔ Forall (λ x, ¬ P x) l.
Proof.
  split.
  - intros Heq. apply Forall_forall. intros x Hx HP.
    assert (Hin : x ∈ filter P l) by by apply list_elem_of_filter.
    rewrite Heq in Hin. by apply not_elem_of_nil in Hin.
  - induction 1 as [|x l Hx _ IH]; [done|]. by rewrite filter_cons_False.
Qed.

Lemma sublist_same_length {A} (l1 l2 : list A) :
  sublist l1 l2 → length l1 = length l2 → l1 = l2.
Proof.
  induction 1 as [|x l1 l2 _ IH|x l1 l2 Hsub _]; simpl; intros Hlen.
  - reflexivity.
  - f_equal. apply IH. lia.
  - apply sublist_length in Hsub. lia.
Qed.

(** X4: filtering is idempotent; filtering the entities already filtered
    returns them all. *)
Theorem filterEditableEntities_idempotent (h : heap) (entities : list loc) :
  filterEditableEntities (filterEditableEntities entities h).1
    (filterEditableEntities entities h).2
  = filterEditableEntities entities h.
Proof.
  rewrite (filterEditableEntities_run h entities). simpl.
  rewrite filterEditableEntities_run. f_equal.
  apply filter_Forall_id, Forall_forall. intros l Hl.
  by apply list_elem_of_filter in Hl as [? _].
Qed.

(** X5: filtering a concatenation is concatenating the two filtered lists. *)
Theorem filterEditableEntities_app (h : heap) (front back : list loc) :
  filterEditableEntities (front ++ back)%list h
  = (((filterEditableEntities front h).1 ++ (filterEditableEntities back h).1)%list, h).
Proof. rewrite !filterEditableEntities_run. simpl. by rewrite filter_app. Qed.

(** X6: the filter returns its whole input exactly when every entity is
    editable, and the empty list exactly when none is; in particular an
    empty input gives an empty result. *)
Theorem filterEditableEntities_all_or_none (h : heap) (entities : list loc) :
  ((filterEditableEntities entities h).1 = entities
   ↔ Forall (λ l, (isEditableComplianceEntity l h).1 = true) entities)
  ∧ ((filterEditableEntities entities h).1 = []
     ↔ Forall (λ l, (isEditableComplianceEntity l h).1 = false) entities)
  ∧ (length (filterEditableEntities entities h).1 = length entities
     ↔ (filterEditableEntities entities h).1 = entities)
  ∧ filterEditableEntities [] h = ([], h).
Proof.
  rewrite filterEditableEntities_run. simpl. split; [|split; [|split]].
  - apply filter_eq_Forall.
  - rewrite filter_nil_Forall, !Forall_forall.
    split; intros Hall l Hl; specialize (Hall l Hl);
      apply not_true_iff_false; exact Hall.
  - split; [|by intros ->].
    intros Hlen. apply sublist_same_length; [apply sublist_filter|done].
  - reflexivity.
Qed.

(** ** Entity sanitizer: allocation, copies and the filter-then-strip flow *)


(** X7: the sanitizer adds to the store exactly the objects it returns, one
    per entity given, and nothing else. *)
Theorem removeReadonlyAttr_allocates (h : heap) (entities : list loc) :
  dom (removeReadonlyAttr entities h).2
    = dom h ∪ list_to_set (removeReadonlyAttr entities h).1
  ∧ size (removeReadonlyAttr entities h).2 = size h + length entities.
Proof.
  revert h. induction entities as [|l rest IH]; intros h.
  - rewrite removeReadonlyAttr_nil. simpl. split; [set_solver|lia].
  - rewrite removeReadonlyAttr_cons. simpl.
    destruct (IH (<[ fresh (dom h) := delete "readonly" (default ∅ (h !! l)) ]> h))
      as [Hdom Hsize].
    split.
    + rewrite Hdom, dom_insert_L. set_solver.
    + rewrite Hsize, map_size_insert_None by apply fleece_fresh. lia.
Qed.



(** X9: the sanitizer leaves the editability of every object of the store as
    it was; an entity marked readonly still is after the run. *)
Theorem removeReadonlyAttr_keeps_editability
    (h : heap) (entities : list loc) (l : loc) :
  is_Some (h !! l) →
  (isEditableComplianceEntity l (removeReadonlyAttr entities h).2).1
  = (isEditableComplianceEntity l h).1.
Proof.
  intros [o Ho]. rewrite !isEditableComplianceEntity_run. simpl.
  destruct (removeReadonlyAttr_inv entities h) as (Hsub & _).
  by rewrite (lookup_weaken _ _ _ _ Ho Hsub), Ho.
Qed.

Lemma removeReadonlyAttr_keeps_editability_witness :
  let h : gmap nat (gmap string JSValue) :=
    {[ 0 := {[ "identifierField" := JString "memberId";
               "readonly" := JBool true ]} ]} in
  (isEditableComplianceEntity 0 (removeReadonlyAttr [0; 0] h).2).1
  = (isEditableComplianceEntity 0 h).1.
Proof.
  intros h. apply (removeReadonlyAttr_keeps_editability h [0; 0] 0).
  eexists. reflexivity.
Defined.


